(** * Coverage analysis tool (coverage_analysis.py): a shallow embedding

    The script parses a Cobertura XML coverage report, renders a text report
    and a JSON report, and writes both from [main].  Python floats are
    IEEE-754 binary64 numbers, modelled with the Standard Library's
    [SpecFloat] at precision 53 and maximal exponent 1024. *)

From Stdlib Require Import ZArith Ascii String List Bool Lia.
From Stdlib Require Import Floats.SpecFloat Sorting.Sorted Sorting.Permutation.
From stdpp Require Import base gmap strings list.

Import ListNotations.
Open Scope string_scope.
Open Scope Z_scope.

(* ------------------------------------------------------------------ *)
(** ** Python floats *)

Module PyFloat.

Definition t := spec_float.

Definition prec : Z := 53.
Definition emax : Z := 1024.

Definition zero : t := S754_zero false.

(** [float(n)] for a Python int [n] (exact rounding to nearest even). *)
Definition of_Z (n : Z) : t := binary_normalize prec emax n 0 false.

Definition mul (x y : t) : t := SFmul prec emax x y.

(** Python's [<], [<=] and [==] on floats (false as soon as a NaN is
    involved). *)
Definition ltb (x y : t) : bool := SFltb x y.
Definition leb (x y : t) : bool := SFleb x y.
Definition eqb (x y : t) : bool := SFeqb x y.

Definition is_nan (x : t) : bool :=
  match x with S754_nan => true | _ => false end.

(** The value [(-1)^s * m * 10^e], correctly rounded to binary64, as
    CPython's string-to-float conversion computes it. *)
Definition of_decimal (s : bool) (m : Z) (e : Z) : t :=
  if Z.eqb m 0 then S754_zero s
  else if Z.leb 0 e then
    match m * 10 ^ e with
    | Zpos p => binary_round prec emax s p 0
    | _ => S754_zero s
    end
  else
    let '(q, e', l) := SFdiv_core_binary prec emax m 0 (10 ^ (- e)) 0 in
    binary_round_aux prec emax s q e' l.

End PyFloat.

(* ------------------------------------------------------------------ *)
(** ** Python's [int(str)] and [float(str)] on ASCII text *)

Module PyNum.

Definition is_space (c : ascii) : bool :=
  let n := nat_of_ascii c in
  ((9 <=? n) && (n <=? 13))%nat || ((28 <=? n) && (n <=? 32))%nat.

Fixpoint lstrip (cs : list ascii) : list ascii :=
  match cs with
  | c :: r => if is_space c then lstrip r else cs
  | [] => []
  end.

(** [str.strip()] as [int()] and [float()] apply it. *)
Definition strip (cs : list ascii) : list ascii := rev (lstrip (rev (lstrip cs))).

Definition digit_val (c : ascii) : option Z :=
  let n := nat_of_ascii c in
  if ((48 <=? n) && (n <=? 57))%nat then Some (Z.of_nat n - 48) else None.

(** Python's [digitpart]: [digit (["_"] digit)*], read greedily; returns the
    digits and the rest of the input. *)
Fixpoint digitpart_rest (cs : list ascii) : list Z * list ascii :=
  match cs with
  | c :: r =>
      match digit_val c with
      | Some d => let '(ds, r') := digitpart_rest r in (d :: ds, r')
      | None =>
          match c, r with
          | "_"%char, c' :: r' =>
              match digit_val c' with
              | Some d => let '(ds, r'') := digitpart_rest r' in (d :: ds, r'')
              | None => ([], cs)
              end
          | _, _ => ([], cs)
          end
      end
  | [] => ([], [])
  end.

Definition digitpart (cs : list ascii) : option (list Z * list ascii) :=
  match cs with
  | c :: r =>
      match digit_val c with
      | Some d => let '(ds, r') := digitpart_rest r in Some (d :: ds, r')
      | None => None
      end
  | [] => None
  end.

Definition digits_value (ds : list Z) : Z := fold_left (fun acc d => acc * 10 + d) ds 0.

Definition sign (cs : list ascii) : bool * list ascii :=
  match cs with
  | "-"%char :: r => (true, r)
  | "+"%char :: r => (false, r)
  | _ => (false, cs)
  end.

(** [int(s)] in base 10; [None] when Python raises [ValueError]. *)
Definition py_int (s : string) : option Z :=
  let '(neg, r) := sign (strip (list_ascii_of_string s)) in
  match digitpart r with
  | Some (ds, []) => Some (if neg then - digits_value ds else digits_value ds)
  | _ => None
  end.

Definition lower (c : ascii) : ascii :=
  let n := nat_of_ascii c in
  if ((65 <=? n) && (n <=? 90))%nat then ascii_of_nat (n + 32) else c.

Definition optional_digitpart (cs : list ascii) : list Z * list ascii :=
  match digitpart cs with Some p => p | None => ([], cs) end.

(** The exponent [("e" | "E") ["+" | "-"] digitpart], if any. *)
Definition exponent (cs : list ascii) : option Z :=
  match cs with
  | [] => Some 0
  | c :: r =>
      if Ascii.eqb (lower c) "e"%char then
        let '(neg, r') := sign r in
        match digitpart r' with
        | Some (ds, []) => Some (if neg then - digits_value ds else digits_value ds)
        | _ => None
        end
      else None
  end.

(** [pointfloat | exponentfloat | digitpart], as digits and exponent. *)
Definition decimal (cs : list ascii) : option (Z * Z) :=
  let '(ip, r1) := optional_digitpart cs in
  match r1 with
  | "."%char :: r2 =>
      let '(fp, r3) := optional_digitpart r2 in
      if (length ip =? 0)%nat && (length fp =? 0)%nat then None
      else match exponent r3 with
           | Some e => Some (digits_value (ip ++ fp), e - Z.of_nat (length fp))
           | None => None
           end
  | _ =>
      if (length ip =? 0)%nat then None
      else match exponent r1 with
           | Some e => Some (digits_value ip, e)
           | None => None
           end
  end.

(** [float(s)]; [None] when Python raises [ValueError]. *)
Definition py_float (s : string) : option PyFloat.t :=
  let '(neg, r) := sign (strip (list_ascii_of_string s)) in
  let w := string_of_list_ascii (map lower r) in
  if String.eqb w "inf" || String.eqb w "infinity" then Some (S754_infinity neg)
  else if String.eqb w "nan" then Some S754_nan
  else match decimal r with
       | Some (m, e) => Some (PyFloat.of_decimal neg m e)
       | None => None
       end.

End PyNum.

(* ------------------------------------------------------------------ *)
(** ** Python's string formatting of numbers *)

Module PyFmt.

Definition digit_char (d : Z) : ascii := ascii_of_nat (48 + Z.to_nat d).

Fixpoint nat_digits (fuel : nat) (n : Z) (acc : list ascii) : list ascii :=
  match fuel with
  | O => acc
  | S f =>
      let acc' := digit_char (n mod 10) :: acc in
      if n <? 10 then acc' else nat_digits f (n / 10) acc'
  end.

(** Decimal digits of [|n|]. *)
Definition abs_digits (n : Z) : list ascii :=
  nat_digits (S (Z.to_nat (Z.log2 (Z.abs n)))) (Z.abs n) [].

(** [str(n)] for a Python int. *)
Definition str_int (n : Z) : string :=
  string_of_list_ascii ((if n <? 0 then ["-"%char] else []) ++ abs_digits n).

Fixpoint group3 (rev_digits : list ascii) : list ascii :=
  match rev_digits with
  | a :: b :: c :: (_ :: _) as r => a :: b :: c :: ","%char :: group3 r
  | r => r
  end.

(** [f"{n:,}"] for a Python int: thousands separated by commas. *)
Definition fmt_comma (n : Z) : string :=
  string_of_list_ascii
    ((if n <? 0 then ["-"%char] else []) ++ rev (group3 (rev (abs_digits n)))).

(** [round(num / den)] with ties to even, for [den > 0]. *)
Definition div_round_even (num den : Z) : Z :=
  let q := num / den in
  let r := num mod den in
  match Z.compare (2 * r) den with
  | Lt => q
  | Gt => q + 1
  | Eq => if Z.even q then q else q + 1
  end.

(** [f"{x:.1f}"] for a Python float: the exact binary value rounded to one
    decimal, ties to even. *)
Definition fmt_1f (x : PyFloat.t) : string :=
  match x with
  | S754_nan => "nan"
  | S754_infinity s => if s then "-inf" else "inf"
  | S754_zero s => if s then "-0.0" else "0.0"
  | S754_finite s m e =>
      let tenths :=
        if 0 <=? e then Zpos m * 2 ^ e * 10
        else div_round_even (Zpos m * 10) (2 ^ (- e)) in
      string_of_list_ascii
        ((if s then ["-"%char] else []) ++ abs_digits (tenths / 10)
         ++ ["."%char; digit_char (tenths mod 10)])
  end.

End PyFmt.

(* ------------------------------------------------------------------ *)
(** ** Exceptions *)

(** The Python exceptions the script can meet. *)
Inductive py_exc :=
  | ValueError (msg : string)
  | ParseError (msg : string).

Definition exc_str (e : py_exc) : string :=
  match e with ValueError m => m | ParseError m => m end.

(** A computation that returns a value or raises. *)
Inductive result (A : Type) :=
  | Ok (a : A)
  | Raise (e : py_exc).
Arguments Ok {A} a.
Arguments Raise {A} e.

Definition bind {A B} (c : result A) (k : A -> result B) : result B :=
  match c with Ok a => k a | Raise e => Raise e end.

Notation "'let!' x := c 'in' k" := (bind c (fun x => k))
  (at level 200, x name, c at level 100, k at level 200).

Fixpoint map_result {A B} (f : A -> result B) (l : list A) : result (list B) :=
  match l with
  | [] => Ok []
  | x :: r => let! y := f x in let! ys := map_result f r in Ok (y :: ys)
  end.

(** [int(s)] and [float(s)] raising [ValueError]; the message shows [s]
    between single quotes (Python's [repr] for text without quotes or
    escapes). *)
Definition int_of_str (s : string) : result Z :=
  match PyNum.py_int s with
  | Some n => Ok n
  | None => Raise (ValueError ("invalid literal for int() with base 10: '" ++ s ++ "'"))
  end.

Definition float_of_str (s : string) : result PyFloat.t :=
  match PyNum.py_float s with
  | Some x => Ok x
  | None => Raise (ValueError ("could not convert string to float: '" ++ s ++ "'"))
  end.

(* ------------------------------------------------------------------ *)
(** ** Data model: the dictionaries built by the parser *)

(** A per-file dict.  [module] is the key ['module'], absent ([None]) when
    the parser builds the dict; the formatter adds it. *)
Module FileEntry.
Record t := mk {
  name : string;
  line_rate : PyFloat.t;
  branch_rate : PyFloat.t;
  complexity : PyFloat.t;
  lines : Z;
  covered_lines : Z;
  branches : Z;
  covered_branches : Z;
  module : option string
}.
End FileEntry.

(** A per-package ("module") dict. *)
Module ModuleStats.
Record t := mk {
  name : string;
  line_rate : PyFloat.t;
  branch_rate : PyFloat.t;
  complexity : PyFloat.t;
  files : list FileEntry.t
}.
End ModuleStats.

(** The [coverage_data] dict.  Its top-level ['files'] list is created
    empty and never filled. *)
Module CoverageData.
Record t := mk {
  total_lines : Z;
  covered_lines : Z;
  line_rate : PyFloat.t;
  total_branches : Z;
  covered_branches : Z;
  branch_rate : PyFloat.t;
  modules : list ModuleStats.t;
  files : list FileEntry.t
}.
End CoverageData.

(* ------------------------------------------------------------------ *)
(** ** XML trees (xml.etree.ElementTree) *)

#[warnings="-register-all"]
Inductive element := Element {
  tag : string;
  attrib : gmap string string;
  children : list element
}.

Definition children_tagged (t : string) (es : list element) : list element :=
  List.filter (fun e => String.eqb (tag e) t) es.

(** [e.findall('t1/t2')]: the [t2] children of the [t1] children of [e], in
    document order. *)
Definition findall (e : element) (t1 t2 : string) : list element :=
  concat (map (fun c => children_tagged t2 (children c)) (children_tagged t1 (children e))).

(** [attrib.get(k, d)] *)
Definition attr_get (a : gmap string string) (k d : string) : string :=
  match a !! k with Some v => v | None => d end.

Definition int_attr (a : gmap string string) (k : string) : result Z :=
  int_of_str (attr_get a k "0").

Definition float_attr (a : gmap string string) (k : string) : result PyFloat.t :=
  float_of_str (attr_get a k "0.0").

(* ------------------------------------------------------------------ *)
(** ** Parser: parse_cobertura_xml *)

(** The [file_stats] dict of one [class] element (lines 53-64). *)
Definition parse_class (c : element) : result FileEntry.t :=
  let a := attrib c in
  let filename := attr_get a "filename" "unknown" in
  let! lr := float_attr a "line-rate" in
  let! br := float_attr a "branch-rate" in
  let! cx := float_attr a "complexity" in
  let! ln := int_attr a "lines-valid" in
  let! cl := int_attr a "lines-covered" in
  let! bn := int_attr a "branches-valid" in
  let! cb := int_attr a "branches-covered" in
  Ok (FileEntry.mk filename lr br cx ln cl bn cb None).

(** The [module_stats] dict of one [package] element (lines 42-66). *)
Definition parse_package (p : element) : result ModuleStats.t :=
  let a := attrib p in
  let module_name := attr_get a "name" "unknown" in
  let! lr := float_attr a "line-rate" in
  let! br := float_attr a "branch-rate" in
  let! cx := float_attr a "complexity" in
  let! fs := map_result parse_class (findall p "classes" "class") in
  Ok (ModuleStats.mk module_name lr br cx fs).

(** Lines 20-68 on the root element. *)
Definition parse_root (root : element) : result CoverageData.t :=
  let a := attrib root in
  let! tl := int_attr a "lines-valid" in
  let! cl := int_attr a "lines-covered" in
  let! lr := float_attr a "line-rate" in
  let! tb := int_attr a "branches-valid" in
  let! cb := int_attr a "branches-covered" in
  let! br := float_attr a "branch-rate" in
  let! ms := map_result parse_package (findall root "packages" "package") in
  Ok (CoverageData.mk tl cl lr tb cb br ms []).

(** [parse_cobertura_xml]: given the outcome of [ET.parse(xml_file)], the
    returned value ([None] for Python's [None]) and the lines printed. *)
Definition parse_cobertura_xml (tree : result element) : option CoverageData.t * list string :=
  match bind tree parse_root with
  | Ok d => (Some d, [])
  | Raise e => (None, ["Error parsing XML: " ++ exc_str e])
  end.

(* ------------------------------------------------------------------ *)
(** ** Python's [sorted] *)

(** [sorted(l, key=key)] is a stable sort that compares keys with [<] only.
    It is modelled by a stable insertion sort; when [<] is a strict weak
    order on the keys every stable sort yields this same list.  With
    [reverse=True] CPython reverses the list, sorts it and reverses the
    result. *)
Section PySorted.
Context {A : Type} (key : A -> PyFloat.t).

Fixpoint insert (x : A) (l : list A) : list A :=
  match l with
  | [] => [x]
  | y :: r => if PyFloat.ltb (key y) (key x) then y :: insert x r else x :: l
  end.

Fixpoint isort (l : list A) : list A :=
  match l with
  | [] => []
  | x :: r => insert x (isort r)
  end.

Definition py_sorted (reverse : bool) (l : list A) : list A :=
  if reverse then rev (isort (rev l)) else isort l.

End PySorted.

(* ------------------------------------------------------------------ *)
(** ** Formatter: generate_text_report *)

Definition nl : string := String (ascii_of_nat 10) EmptyString.

Fixpoint rep (n : nat) (s : string) : string :=
  match n with O => "" | S k => s ++ rep k s end.

(** [x * 100] with the int [100] promoted to float. *)
Definition pct (x : PyFloat.t) : PyFloat.t := PyFloat.mul x (PyFloat.of_Z 100).

(** [x >= n] and [x < n] for a float [x] and an int [n]. *)
Definition ge_int (x : PyFloat.t) (n : Z) : bool := PyFloat.leb (PyFloat.of_Z n) x.
Definition lt_int (x : PyFloat.t) (n : Z) : bool := PyFloat.ltb x (PyFloat.of_Z n).

(** Line 118: [file_info['module'] = module['name']]. *)
Definition set_module (mn : string) (f : FileEntry.t) : FileEntry.t :=
  FileEntry.mk (FileEntry.name f) (FileEntry.line_rate f) (FileEntry.branch_rate f)
    (FileEntry.complexity f) (FileEntry.lines f) (FileEntry.covered_lines f)
    (FileEntry.branches f) (FileEntry.covered_branches f) (Some mn).

(** The file dicts are shared between [all_files] and [coverage_data]; the
    assignment of line 118 is visible through the report.  These are the
    module dicts and the report after the loop of lines 116-119. *)
Definition annotate_module (m : ModuleStats.t) : ModuleStats.t :=
  ModuleStats.mk (ModuleStats.name m) (ModuleStats.line_rate m) (ModuleStats.branch_rate m)
    (ModuleStats.complexity m) (map (set_module (ModuleStats.name m)) (ModuleStats.files m)).

Definition annotate (d : CoverageData.t) : CoverageData.t :=
  CoverageData.mk (CoverageData.total_lines d) (CoverageData.covered_lines d)
    (CoverageData.line_rate d) (CoverageData.total_branches d)
    (CoverageData.covered_branches d) (CoverageData.branch_rate d)
    (map annotate_module (CoverageData.modules d)) (CoverageData.files d).

(** [all_files] after the loop of lines 116-119. *)
Definition all_files (d : CoverageData.t) : list FileEntry.t :=
  concat (map (fun m => map (set_module (ModuleStats.name m)) (ModuleStats.files m))
              (CoverageData.modules d)).

(** Line 102. *)
Definition modules_sorted (d : CoverageData.t) : list ModuleStats.t :=
  py_sorted ModuleStats.line_rate true (CoverageData.modules d).

(** Line 122. *)
Definition all_files_sorted (d : CoverageData.t) : list FileEntry.t :=
  py_sorted FileEntry.line_rate false (all_files d).

(** Line 126. *)
Definition status (coverage_pct : PyFloat.t) : string :=
  if ge_int coverage_pct 90 then "✅ EXCELLENT"
  else if ge_int coverage_pct 70 then "⚠️  GOOD"
  else "❌ NEEDS WORK".

(** Line 151. *)
Definition low_coverage_files (fs : list FileEntry.t) : list FileEntry.t :=
  List.filter (fun f => lt_int (pct (FileEntry.line_rate f)) 50) fs.

Definition header_lines : list string :=
  [rep 80 "="; "RUSTQL COVERAGE ANALYSIS REPORT"; rep 80 "="; ""].

Definition overall_lines (d : CoverageData.t) : list string :=
  ["📊 OVERALL COVERAGE STATISTICS"; rep 40 "-";
   "Total Lines:          " ++ PyFmt.fmt_comma (CoverageData.total_lines d);
   "Covered Lines:        " ++ PyFmt.fmt_comma (CoverageData.covered_lines d);
   "Line Coverage:        " ++ PyFmt.fmt_1f (pct (CoverageData.line_rate d)) ++ "%";
   "Total Branches:       " ++ PyFmt.fmt_comma (CoverageData.total_branches d);
   "Covered Branches:     " ++ PyFmt.fmt_comma (CoverageData.covered_branches d);
   "Branch Coverage:      " ++ PyFmt.fmt_1f (pct (CoverageData.branch_rate d)) ++ "%";
   ""].

Definition module_block (m : ModuleStats.t) : list string :=
  ["Module: " ++ ModuleStats.name m;
   "  Line Coverage:   " ++ PyFmt.fmt_1f (pct (ModuleStats.line_rate m)) ++ "%";
   "  Branch Coverage: " ++ PyFmt.fmt_1f (pct (ModuleStats.branch_rate m)) ++ "%";
   "  Complexity:      " ++ PyFmt.fmt_1f (ModuleStats.complexity m);
   ""].

Definition module_section (d : CoverageData.t) : list string :=
  ["📁 MODULE COVERAGE BREAKDOWN"; rep 40 "-"] ++ concat (map module_block (modules_sorted d)).

(** One entry of lines 124-134; the ['module'] key is always set by then. *)
Definition file_block (f : FileEntry.t) : list string :=
  let coverage_pct := pct (FileEntry.line_rate f) in
  ["File: " ++ FileEntry.name f;
   "  Module:        " ++ default "" (FileEntry.module f);
   "  Line Coverage: " ++ PyFmt.fmt_1f coverage_pct ++ "% " ++ status coverage_pct;
   "  Lines:         " ++ PyFmt.str_int (FileEntry.covered_lines f) ++ "/"
                       ++ PyFmt.str_int (FileEntry.lines f);
   "  Branch Coverage: " ++ PyFmt.fmt_1f (pct (FileEntry.branch_rate f)) ++ "%";
   "  Complexity:    " ++ PyFmt.fmt_1f (FileEntry.complexity f);
   ""].

Definition file_section (d : CoverageData.t) : list string :=
  ["📄 DETAILED FILE COVERAGE"; rep 40 "-"] ++ concat (map file_block (all_files_sorted d)).

Definition low_coverage_line (f : FileEntry.t) : string :=
  "  • " ++ FileEntry.name f ++ ": " ++ PyFmt.fmt_1f (pct (FileEntry.line_rate f)) ++ "%".

(** Lines 150-156. *)
Definition attention_section (fs : list FileEntry.t) : list string :=
  match low_coverage_files fs with
  | [] => []
  | low => "" :: "🔍 Files needing attention (< 50% coverage):" :: map low_coverage_line low
  end.

(** Lines 137-148. *)
Definition summary_head (d : CoverageData.t) : list string :=
  let overall_coverage := pct (CoverageData.line_rate d) in
  ["🎯 SUMMARY & RECOMMENDATIONS"; rep 40 "-";
   if ge_int overall_coverage 80 then "✅ EXCELLENT: Overall coverage is very good!"
   else if ge_int overall_coverage 60
   then "⚠️  GOOD: Overall coverage is decent but could be improved"
   else "❌ NEEDS WORK: Overall coverage needs significant improvement";
   "Current overall line coverage: " ++ PyFmt.fmt_1f overall_coverage ++ "%"].

Definition summary_section (d : CoverageData.t) : list string :=
  summary_head d ++ attention_section (all_files d).

Definition report_lines (d : CoverageData.t) : list string :=
  header_lines ++ overall_lines d ++ module_section d ++ file_section d ++ summary_section d.

(** [generate_text_report(coverage_data)]: the text returned and the state of
    the argument afterwards ([None] stands for a falsy argument). *)
Definition generate_text_report (cd : option CoverageData.t)
    : string * option CoverageData.t :=
  match cd with
  | None => ("No coverage data available", None)
  | Some d => (String.concat nl (report_lines d), Some (annotate d))
  end.

(* ------------------------------------------------------------------ *)
(** ** Serializer: generate_json_report *)

(** JSON values as [json.dump] writes them and [json.load] reads them back:
    ints as JSON integers, floats through [float.__repr__] (which reads back
    to the same float, [NaN] and [Infinity] included), strings, lists as
    arrays and dicts as objects in insertion order. *)
#[warnings="-register-all"]
Inductive json :=
  | JInt (n : Z)
  | JFloat (x : PyFloat.t)
  | JStr (s : string)
  | JArr (l : list json)
  | JObj (kvs : list (string * json)).

Definition file_to_json (f : FileEntry.t) : json :=
  JObj ([("name", JStr (FileEntry.name f));
         ("line_rate", JFloat (FileEntry.line_rate f));
         ("branch_rate", JFloat (FileEntry.branch_rate f));
         ("complexity", JFloat (FileEntry.complexity f));
         ("lines", JInt (FileEntry.lines f));
         ("covered_lines", JInt (FileEntry.covered_lines f));
         ("branches", JInt (FileEntry.branches f));
         ("covered_branches", JInt (FileEntry.covered_branches f))]
        ++ match FileEntry.module f with
           | Some mn => [("module", JStr mn)]
           | None => []
           end).

Definition module_to_json (m : ModuleStats.t) : json :=
  JObj [("name", JStr (ModuleStats.name m));
        ("line_rate", JFloat (ModuleStats.line_rate m));
        ("branch_rate", JFloat (ModuleStats.branch_rate m));
        ("complexity", JFloat (ModuleStats.complexity m));
        ("files", JArr (map file_to_json (ModuleStats.files m)))].

(** The JSON value of the [coverage_data] dict. *)
Definition report_to_json (d : CoverageData.t) : json :=
  JObj [("total_lines", JInt (CoverageData.total_lines d));
        ("covered_lines", JInt (CoverageData.covered_lines d));
        ("line_rate", JFloat (CoverageData.line_rate d));
        ("total_branches", JInt (CoverageData.total_branches d));
        ("covered_branches", JInt (CoverageData.covered_branches d));
        ("branch_rate", JFloat (CoverageData.branch_rate d));
        ("modules", JArr (map module_to_json (CoverageData.modules d)));
        ("files", JArr (map file_to_json (CoverageData.files d)))].

(** Reconstruction of a report from a loaded JSON document, as the spec's
    round-trip contract describes it: every field read back by its key. *)
Module Reload.

Fixpoint jget (k : string) (kvs : list (string * json)) : option json :=
  match kvs with
  | [] => None
  | (k', v) :: r => if String.eqb k k' then Some v else jget k r
  end.

Definition as_int (j : option json) : option Z :=
  match j with Some (JInt n) => Some n | _ => None end.
Definition as_float (j : option json) : option PyFloat.t :=
  match j with Some (JFloat x) => Some x | _ => None end.
Definition as_str (j : option json) : option string :=
  match j with Some (JStr s) => Some s | _ => None end.
Definition as_arr (j : option json) : option (list json) :=
  match j with Some (JArr l) => Some l | _ => None end.

Fixpoint map_option {A B} (f : A -> option B) (l : list A) : option (list B) :=
  match l with
  | [] => Some []
  | x :: r => y ← f x; ys ← map_option f r; Some (y :: ys)
  end.

Definition file_of_json (j : json) : option FileEntry.t :=
  match j with
  | JObj kvs =>
      n ← as_str (jget "name" kvs);
      lr ← as_float (jget "line_rate" kvs);
      br ← as_float (jget "branch_rate" kvs);
      cx ← as_float (jget "complexity" kvs);
      ln ← as_int (jget "lines" kvs);
      cl ← as_int (jget "covered_lines" kvs);
      bn ← as_int (jget "branches" kvs);
      cb ← as_int (jget "covered_branches" kvs);
      Some (FileEntry.mk n lr br cx ln cl bn cb (as_str (jget "module" kvs)))
  | _ => None
  end.

Definition module_of_json (j : json) : option ModuleStats.t :=
  match j with
  | JObj kvs =>
      n ← as_str (jget "name" kvs);
      lr ← as_float (jget "line_rate" kvs);
      br ← as_float (jget "branch_rate" kvs);
      cx ← as_float (jget "complexity" kvs);
      fs ← as_arr (jget "files" kvs);
      files ← map_option file_of_json fs;
      Some (ModuleStats.mk n lr br cx files)
  | _ => None
  end.

Definition report_of_json (j : json) : option CoverageData.t :=
  match j with
  | JObj kvs =>
      tl ← as_int (jget "total_lines" kvs);
      cl ← as_int (jget "covered_lines" kvs);
      lr ← as_float (jget "line_rate" kvs);
      tb ← as_int (jget "total_branches" kvs);
      cb ← as_int (jget "covered_branches" kvs);
      br ← as_float (jget "branch_rate" kvs);
      ms ← as_arr (jget "modules" kvs);
      modules ← map_option module_of_json ms;
      fs ← as_arr (jget "files" kvs);
      files ← map_option file_of_json fs;
      Some (CoverageData.mk tl cl lr tb cb br modules files)
  | _ => None
  end.

End Reload.

(* ------------------------------------------------------------------ *)
(** ** Driver: main *)

(** The process state: the files by path, and the lines printed. *)
Record io_state := IoState {
  fs : gmap string string;
  stdout : list string
}.

Inductive outcome (A : Type) :=
  | Done (a : A)
  | Exited (code : Z).
Arguments Done {A} a.
Arguments Exited {A} code.

(** Blocking I/O with [sys.exit]. *)
Definition IO (A : Type) : Type := io_state -> outcome A * io_state.

Definition io_ret {A} (a : A) : IO A := fun st => (Done a, st).

Definition io_bind {A B} (c : IO A) (k : A -> IO B) : IO B :=
  fun st =>
    match c st with
    | (Done a, st') => k a st'
    | (Exited n, st') => (Exited n, st')
    end.

Notation "x <<- c ;; k" := (io_bind c (fun x => k))
  (at level 100, c at next level, right associativity).
Notation "c ;;; k" := (io_bind c (fun _ : unit => k))
  (at level 100, right associativity).

Definition print (s : string) : IO unit :=
  fun st => (Done tt, IoState (fs st) (stdout st ++ [s])).

Definition print_all (ls : list string) : IO unit :=
  fun st => (Done tt, IoState (fs st) (stdout st ++ ls)).

Definition sys_exit {A} (code : Z) : IO A := fun st => (Exited code, st).

(** [open(path, 'w')] followed by writing [contents]. *)
Definition write_file (path contents : string) : IO unit :=
  fun st => (Done tt, IoState (<[path := contents]> (fs st)) (stdout st)).

(** [os.path.exists(path)], and the text of the file. *)
Definition read_file (path : string) : IO (option string) :=
  fun st => (Done (fs st !! path), st).

Definition xml_file : string := "coverage/cobertura.xml".

Section Driver.

(** The library calls: [ET.parse] on the text of the input file, and the
    text [json.dump(..., indent=2)] writes for a JSON value. *)
Variable et_parse : string -> result element.
Variable json_dumps : json -> string.

Definition generate_json_report (d : CoverageData.t) (output_file : string) : IO unit :=
  write_file output_file (json_dumps (report_to_json d)).

(** [main] from the file check on; the outcome of [ET.parse] is computed from
    the file's text. *)
Definition main : IO unit :=
  contents <<- read_file xml_file ;;
  match contents with
  | None =>
      print ("Error: Coverage file " ++ xml_file ++ " not found") ;;;
      print "Please run: cargo tarpaulin --out Xml --output-dir coverage" ;;;
      sys_exit 1
  | Some text =>
      print "🔍 Analyzing coverage data..." ;;;
      let '(coverage_data, msgs) := parse_cobertura_xml (et_parse text) in
      print_all msgs ;;;
      match coverage_data with
      | None =>
          print "Failed to parse coverage data" ;;;
          sys_exit 1
      | Some d =>
          print "📊 Generating text report..." ;;;
          let '(text_report, after) := generate_text_report (Some d) in
          let d' := default d after in
          print "📊 Generating JSON report..." ;;;
          generate_json_report d' "coverage_report.json" ;;;
          write_file "coverage_report.txt" text_report ;;;
          print "✅ Coverage analysis complete!" ;;;
          print "📄 Reports generated:" ;;;
          print "  • coverage_report.txt (human-readable)" ;;;
          print "  • coverage_report.json (machine-readable)" ;;;
          print "  • coverage/html/tarpaulin-report.html (interactive HTML)" ;;;
          print "" ;;;
          print text_report
      end
  end.

(** The exit status of the process and its final state. *)
Definition run_main (st : io_state) : Z * io_state :=
  match main st with
  | (Done _, st') => (0, st')
  | (Exited n, st') => (n, st')
  end.

End Driver.

(* ------------------------------------------------------------------ *)
(** ** Vocabulary of the properties *)

(** The order of the non-NaN floats, as a lexicographic key: class
    (-inf, negative, zero, positive, +inf), then exponent, then mantissa. *)
Definition fkey (x : PyFloat.t) : Z * Z * Z :=
  match x with
  | S754_infinity true => (0, 0, 0)
  | S754_finite true m e => (1, - e, Zneg m)
  | S754_zero _ => (2, 0, 0)
  | S754_finite false m e => (3, e, Zpos m)
  | S754_infinity false => (4, 0, 0)
  | S754_nan => (0, 0, 0)
  end.

Definition lex3 (a b : Z * Z * Z) : comparison :=
  let '(a1, a2, a3) := a in
  let '(b1, b2, b3) := b in
  match Z.compare a1 b1 with
  | Eq => match Z.compare a2 b2 with Eq => Z.compare a3 b3 | c => c end
  | c => c
  end.

(** A float in the closed interval [0, 1]. *)
Definition in01 (x : PyFloat.t) : bool :=
  PyFloat.leb PyFloat.zero x && PyFloat.leb x (PyFloat.of_Z 1).

(** The float a decimal literal denotes in Python. *)
Definition float_lit (s : string) : PyFloat.t :=
  match PyNum.py_float s with Some x => x | None => S754_nan end.

(** Every rate attribute of an attribute map that converts, converts to a
    value in [0, 1]. *)
Definition attrs_rates_in01 (a : gmap string string) : Prop :=
  forall k x, (k = "line-rate" \/ k = "branch-rate") ->
    float_attr a k = Ok x -> in01 x = true.

Definition input_rates_in01 (root : element) : Prop :=
  attrs_rates_in01 (attrib root) /\
  Forall (fun p => attrs_rates_in01 (attrib p) /\
                   Forall (fun c => attrs_rates_in01 (attrib c)) (findall p "classes" "class"))
         (findall root "packages" "package").

(** Every rate of a report lies in [0, 1]. *)
Definition report_rates_in01 (d : CoverageData.t) : Prop :=
  in01 (CoverageData.line_rate d) = true /\ in01 (CoverageData.branch_rate d) = true /\
  Forall (fun m => in01 (ModuleStats.line_rate m) = true /\
                   in01 (ModuleStats.branch_rate m) = true /\
                   Forall (fun f => in01 (FileEntry.line_rate f) = true /\
                                    in01 (FileEntry.branch_rate f) = true)
                          (ModuleStats.files m))
         (CoverageData.modules d).

(** The line and branch rates [lr] and [br] are what [float()] makes of the
    element's [line-rate] and [branch-rate] attributes ("0.0" when absent). *)
Definition attrs_give_rates (a : gmap string string) (lr br : PyFloat.t) : Prop :=
  float_attr a "line-rate" = Ok lr /\ float_attr a "branch-rate" = Ok br.

(** Every rate of the report is read from the matching element. *)
Definition rates_from_attrs (root : element) (d : CoverageData.t) : Prop :=
  attrs_give_rates (attrib root) (CoverageData.line_rate d) (CoverageData.branch_rate d) /\
  Forall2 (fun p m =>
             attrs_give_rates (attrib p) (ModuleStats.line_rate m) (ModuleStats.branch_rate m) /\
             Forall2 (fun c f =>
                        attrs_give_rates (attrib c) (FileEntry.line_rate f) (FileEntry.branch_rate f))
                     (findall p "classes" "class") (ModuleStats.files m))
          (findall root "packages" "package") (CoverageData.modules d).

(** Absent attributes give zero fields, per element. *)
Definition root_defaults (a : gmap string string) (d : CoverageData.t) : Prop :=
  (a !! "lines-valid" = None -> CoverageData.total_lines d = 0) /\
  (a !! "lines-covered" = None -> CoverageData.covered_lines d = 0) /\
  (a !! "line-rate" = None -> CoverageData.line_rate d = PyFloat.zero) /\
  (a !! "branches-valid" = None -> CoverageData.total_branches d = 0) /\
  (a !! "branches-covered" = None -> CoverageData.covered_branches d = 0) /\
  (a !! "branch-rate" = None -> CoverageData.branch_rate d = PyFloat.zero).

Definition package_defaults (a : gmap string string) (m : ModuleStats.t) : Prop :=
  (a !! "line-rate" = None -> ModuleStats.line_rate m = PyFloat.zero) /\
  (a !! "branch-rate" = None -> ModuleStats.branch_rate m = PyFloat.zero) /\
  (a !! "complexity" = None -> ModuleStats.complexity m = PyFloat.zero).

Definition class_defaults (a : gmap string string) (f : FileEntry.t) : Prop :=
  (a !! "line-rate" = None -> FileEntry.line_rate f = PyFloat.zero) /\
  (a !! "branch-rate" = None -> FileEntry.branch_rate f = PyFloat.zero) /\
  (a !! "complexity" = None -> FileEntry.complexity f = PyFloat.zero) /\
  (a !! "lines-valid" = None -> FileEntry.lines f = 0) /\
  (a !! "lines-covered" = None -> FileEntry.covered_lines f = 0) /\
  (a !! "branches-valid" = None -> FileEntry.branches f = 0) /\
  (a !! "branches-covered" = None -> FileEntry.covered_branches f = 0).

(** The report with every per-file ['module'] key removed. *)
Definition erase_module_key (f : FileEntry.t) : FileEntry.t :=
  FileEntry.mk (FileEntry.name f) (FileEntry.line_rate f) (FileEntry.branch_rate f)
    (FileEntry.complexity f) (FileEntry.lines f) (FileEntry.covered_lines f)
    (FileEntry.branches f) (FileEntry.covered_branches f) None.

Definition erase_module_keys (d : CoverageData.t) : CoverageData.t :=
  CoverageData.mk (CoverageData.total_lines d) (CoverageData.covered_lines d)
    (CoverageData.line_rate d) (CoverageData.total_branches d)
    (CoverageData.covered_branches d) (CoverageData.branch_rate d)
    (map (fun m => ModuleStats.mk (ModuleStats.name m) (ModuleStats.line_rate m)
                     (ModuleStats.branch_rate m) (ModuleStats.complexity m)
                     (map erase_module_key (ModuleStats.files m)))
         (CoverageData.modules d))
    (CoverageData.files d).

(** The element without attribute [k]. *)
Definition delete_attr (k : string) (e : element) : element :=
  Element (tag e) (delete k (attrib e)) (children e).

(** ** Sample documents *)

Definition class_elem (kvs : list (string * string)) : element :=
  Element "class" (list_to_map kvs) [].

Definition package_elem (kvs : list (string * string)) (classes : list element) : element :=
  Element "package" (list_to_map kvs) [Element "classes" ∅ classes].

Definition coverage_elem (kvs : list (string * string)) (packages : list element) : element :=
  Element "coverage" (list_to_map kvs) [Element "packages" ∅ packages].

(** The spec's end-to-end document: package [core], class [core/lib]. *)
Definition core_doc : element :=
  coverage_elem [("lines-valid", "100"); ("lines-covered", "45"); ("line-rate", "0.45")]
    [package_elem [("name", "core"); ("line-rate", "0.45")]
       [class_elem [("filename", "core/lib"); ("lines-valid", "100");
                    ("lines-covered", "45"); ("line-rate", "0.45")]]].

(** Two packages; [util] has two classes. *)
Definition sample_doc : element :=
  coverage_elem [("lines-valid", "300"); ("lines-covered", "180"); ("line-rate", "0.6")]
    [package_elem [("name", "core"); ("line-rate", "0.45")]
       [class_elem [("filename", "core/lib"); ("line-rate", "0.45")]];
     package_elem [("name", "util"); ("line-rate", "0.9")]
       [class_elem [("filename", "util/a"); ("line-rate", "0.9")];
        class_elem [("filename", "util/b"); ("line-rate", "0.499")];
        class_elem [("filename", "util/c"); ("line-rate", "0.5")]]].

Definition empty_report : CoverageData.t :=
  CoverageData.mk 0 0 PyFloat.zero 0 0 PyFloat.zero [] [].

Definition sample_report : CoverageData.t :=
  match parse_root sample_doc with Ok d => d | Raise _ => empty_report end.

(** A per-file dict with the given line rate, as the parser builds it. *)
Definition file_with_rate (name rate : string) : FileEntry.t :=
  FileEntry.mk name (float_lit rate) PyFloat.zero PyFloat.zero 0 0 0 0 None.

(** The element with attribute [k] set to [v]. *)
Definition set_attr (k v : string) (e : element) : element :=
  Element (tag e) (<[k:=v]> (attrib e)) (children e).

(** The spec's document with a non-numeric [lines-valid] on the root. *)
Definition bad_lines_doc : element := set_attr "lines-valid" "abc" core_doc.

(** ** Attributes read as numbers *)

(** The count attributes read with [int()] (root and class). *)
Definition count_keys : list string :=
  ["lines-valid"; "lines-covered"; "branches-valid"; "branches-covered"].

(** The rate attributes of the root, read with [float()]. *)
Definition root_rate_keys : list string := ["line-rate"; "branch-rate"].






(** A file system holding only the input file. *)
Definition input_only_state : io_state :=
  IoState {[xml_file := "<coverage/>"]} [].

(** The report of [core_doc]. *)
Definition core_report : CoverageData.t :=
  match parse_root core_doc with Ok d => d | Raise _ => empty_report end.


(* ================================================================== *)
(** * Properties *)

(** ** Float comparisons *)

Lemma lex3_Eq a b : lex3 a b = Eq <-> a = b.
Proof.
  destruct a as [[a1 a2] a3], b as [[b1 b2] b3]; simpl.
  destruct (Z.compare_spec a1 b1), (Z.compare_spec a2 b2), (Z.compare_spec a3 b3);
    split; intros H'; try discriminate; try (injection H'; intros); subst; try lia; auto.
Qed.

Lemma lex3_Lt a b :
  lex3 a b = Lt <->
  (fst (fst a) < fst (fst b) \/ fst (fst a) = fst (fst b) /\
     (snd (fst a) < snd (fst b) \/ snd (fst a) = snd (fst b) /\ snd a < snd b)).
Proof.
  destruct a as [[a1 a2] a3], b as [[b1 b2] b3]; simpl.
  destruct (Z.compare_spec a1 b1), (Z.compare_spec a2 b2), (Z.compare_spec a3 b3);
    split; intros; try discriminate; try lia; auto.
Qed.

Lemma lex3_antisym a b : lex3 b a = CompOpp (lex3 a b).
Proof.
  destruct a as [[a1 a2] a3], b as [[b1 b2] b3]; simpl.
  rewrite (Z.compare_antisym a1 b1), (Z.compare_antisym a2 b2), (Z.compare_antisym a3 b3).
  destruct (a1 ?= b1), (a2 ?= b2), (a3 ?= b3); reflexivity.
Qed.

(** On non-NaN floats, IEEE comparison is the lexicographic order of keys. *)
Lemma SFcompare_fkey x y :
  PyFloat.is_nan x = false -> PyFloat.is_nan y = false ->
  SFcompare x y = Some (lex3 (fkey x) (fkey y)).
Proof.
  intros Hx Hy.
  destruct x as [sx|sx| |sx mx ex]; try discriminate;
  destruct y as [sy|sy| |sy my ey]; try discriminate;
  try destruct sx; try destruct sy; simpl; try reflexivity.
  rewrite Z.compare_opp, (Z.compare_antisym ex ey).
  destruct (ex ?= ey); reflexivity.
Qed.

Lemma leb_not_nan x y :
  PyFloat.leb x y = true -> PyFloat.is_nan x = false /\ PyFloat.is_nan y = false.
Proof. destruct x, y; easy. Qed.

Lemma ltb_not_nan x y :
  PyFloat.ltb x y = true -> PyFloat.is_nan x = false /\ PyFloat.is_nan y = false.
Proof. destruct x, y; easy. Qed.

Lemma eqb_not_nan x y :
  PyFloat.eqb x y = true -> PyFloat.is_nan x = false /\ PyFloat.is_nan y = false.
Proof. destruct x, y; easy. Qed.

Ltac float_cmp :=
  unfold PyFloat.leb, PyFloat.ltb, PyFloat.eqb, SFleb, SFltb, SFeqb in *;
  repeat match goal with
  | H : PyFloat.is_nan ?a = false, H' : PyFloat.is_nan ?b = false |- _ =>
      progress rewrite ?(SFcompare_fkey a b H H') in *
  end.

Lemma leb_trans x y z :
  PyFloat.leb x y = true -> PyFloat.leb y z = true -> PyFloat.leb x z = true.
Proof.
  intros H1 H2.
  destruct (leb_not_nan _ _ H1) as [Hx Hy], (leb_not_nan _ _ H2) as [_ Hz].
  float_cmp.
  destruct (lex3 (fkey x) (fkey y)) eqn:E1; try discriminate;
  destruct (lex3 (fkey y) (fkey z)) eqn:E2; try discriminate.
  - apply lex3_Eq in E1, E2. rewrite E1, E2, (proj2 (lex3_Eq _ _) eq_refl). reflexivity.
  - apply lex3_Eq in E1. rewrite E1, E2. reflexivity.
  - apply lex3_Eq in E2. rewrite <- E2, E1. reflexivity.
  - apply lex3_Lt in E1, E2. assert (E : lex3 (fkey x) (fkey z) = Lt)
      by (apply lex3_Lt; lia). rewrite E. reflexivity.
Qed.

(** Not [y < x] means [x <= y], for non-NaN floats. *)
Lemma not_ltb_leb x y :
  PyFloat.is_nan x = false -> PyFloat.is_nan y = false ->
  PyFloat.ltb y x = false -> PyFloat.leb x y = true.
Proof.
  intros Hx Hy H. float_cmp.
  rewrite lex3_antisym in H. destruct (lex3 (fkey x) (fkey y)); easy.
Qed.

Lemma ltb_leb x y : PyFloat.ltb x y = true -> PyFloat.leb x y = true.
Proof.
  intros H. destruct (ltb_not_nan _ _ H) as [Hx Hy]. float_cmp.
  destruct (lex3 (fkey x) (fkey y)); easy.
Qed.

(** Two floats equal to the same float are not strictly ordered. *)
Lemma eqb_eqb_not_ltb x y k :
  PyFloat.eqb x k = true -> PyFloat.eqb y k = true -> PyFloat.ltb y x = false.
Proof.
  intros H1 H2.
  destruct (eqb_not_nan _ _ H1) as [Hx Hk], (eqb_not_nan _ _ H2) as [Hy _].
  float_cmp.
  destruct (lex3 (fkey x) (fkey k)) eqn:E1; try discriminate.
  destruct (lex3 (fkey y) (fkey k)) eqn:E2; try discriminate.
  apply lex3_Eq in E1, E2. rewrite E1, E2, (proj2 (lex3_Eq _ _) eq_refl). reflexivity.
Qed.

(** [x < n] is the negation of [x >= n] once neither side is NaN. *)
Lemma lt_int_ge_int x n :
  PyFloat.is_nan x = false -> PyFloat.is_nan (PyFloat.of_Z n) = false ->
  lt_int x n = negb (ge_int x n).
Proof.
  intros Hx Hn. unfold lt_int, ge_int.
  float_cmp. rewrite lex3_antisym. destruct (lex3 _ _); reflexivity.
Qed.

(** ** List filtering *)

Lemma filter_sublist {A} (p : A -> bool) l : sublist (List.filter p l) l.
Proof.
  induction l as [|a l IH]; simpl; [constructor|].
  destruct (p a); [apply sublist_skip | apply sublist_cons]; assumption.
Qed.

Lemma filter_nil_iff {A} (p : A -> bool) l :
  List.filter p l = [] <-> Forall (fun x => p x = false) l.
Proof.
  induction l as [|a l IH]; simpl; [split; [constructor|reflexivity]|].
  destruct (p a) eqn:E; split; intros H.
  - discriminate.
  - inversion H as [|? ? Ha _]. congruence.
  - constructor; [assumption | apply IH; assumption].
  - inversion H as [|? ? _ Hl]. apply IH. assumption.
Qed.

(** ** The stable sort *)

Lemma StronglySorted_snoc {A} (R : A -> A -> Prop) l a :
  StronglySorted R l -> Forall (fun y => R y a) l -> StronglySorted R (l ++ [a]).
Proof.
  induction l as [|b l IH]; simpl; intros Hs Hf.
  - constructor; constructor.
  - inversion Hs; subst. inversion Hf; subst. constructor.
    + apply IH; assumption.
    + apply Forall_app; split; [assumption | constructor; [assumption | constructor]].
Qed.

Lemma StronglySorted_rev {A} (R : A -> A -> Prop) l :
  StronglySorted R l -> StronglySorted (fun a b => R b a) (rev l).
Proof.
  induction l as [|a l IH]; simpl; intros Hs.
  - constructor.
  - inversion Hs; subst. apply StronglySorted_snoc.
    + apply IH; assumption.
    + apply Forall_rev. assumption.
Qed.

Section SortProperties.
Context {A : Type} (key : A -> PyFloat.t).

Let not_nan (x : A) : Prop := PyFloat.is_nan (key x) = false.
Let le (x y : A) : Prop := PyFloat.leb (key x) (key y) = true.

Lemma insert_perm x l : Permutation (insert key x l) (x :: l).
Proof.
  induction l as [|a l IH]; simpl; [reflexivity|].
  destruct (PyFloat.ltb (key a) (key x)); [|reflexivity].
  rewrite IH. apply perm_swap.
Qed.

Lemma isort_perm l : Permutation (isort key l) l.
Proof.
  induction l as [|a l IH]; simpl; [reflexivity|].
  rewrite insert_perm, IH. reflexivity.
Qed.

Lemma py_sorted_perm reverse l : Permutation (py_sorted key reverse l) l.
Proof.
  unfold py_sorted. destruct reverse.
  - rewrite <- Permutation_rev, isort_perm. symmetry. apply Permutation_rev.
  - apply isort_perm.
Qed.

Lemma insert_sorted x l :
  not_nan x -> Forall not_nan l -> Sorted le l -> Sorted le (insert key x l).
Proof.
  induction l as [|a l IH]; simpl; intros Hx Hl Hs.
  - repeat constructor.
  - inversion Hl as [|? ? Ha Hl']; subst.
    inversion Hs as [|? ? Hs' Hhd]; subst.
    destruct (PyFloat.ltb (key a) (key x)) eqn:E.
    + constructor; [apply IH; assumption|].
      destruct l as [|b l']; simpl.
      * constructor. apply ltb_leb. assumption.
      * destruct (PyFloat.ltb (key b) (key x)); constructor.
        -- inversion Hhd; assumption.
        -- apply ltb_leb. assumption.
    + constructor; [constructor; assumption|].
      constructor. apply not_ltb_leb; assumption.
Qed.

Lemma isort_sorted l : Forall not_nan l -> Sorted le (isort key l).
Proof.
  induction l as [|a l IH]; simpl; intros Hl; [constructor|].
  inversion Hl as [|? ? Ha Hl']; subst.
  apply insert_sorted; [assumption| |apply IH; assumption].
  apply List.Forall_forall. intros y Hy. apply (Permutation_in _ (isort_perm l)) in Hy.
  rewrite List.Forall_forall in Hl'. apply Hl'. assumption.
Qed.

Lemma isort_strongly_sorted l : Forall not_nan l -> StronglySorted le (isort key l).
Proof.
  intros Hl. apply Sorted_StronglySorted; [|apply isort_sorted; assumption].
  intros x y z. apply leb_trans.
Qed.

Lemma filter_insert k x l :
  List.filter (fun y => PyFloat.eqb (key y) k) (insert key x l) =
  if PyFloat.eqb (key x) k
  then x :: List.filter (fun y => PyFloat.eqb (key y) k) l
  else List.filter (fun y => PyFloat.eqb (key y) k) l.
Proof.
  induction l as [|a l IH]; simpl; [reflexivity|].
  destruct (PyFloat.ltb (key a) (key x)) eqn:E; simpl; [|reflexivity].
  rewrite IH.
  destruct (PyFloat.eqb (key x) k) eqn:Ex; [|reflexivity].
  destruct (PyFloat.eqb (key a) k) eqn:Ea; [|reflexivity].
  rewrite (eqb_eqb_not_ltb _ _ _ Ex Ea) in E. discriminate.
Qed.

Lemma filter_isort k l :
  List.filter (fun y => PyFloat.eqb (key y) k) (isort key l) =
  List.filter (fun y => PyFloat.eqb (key y) k) l.
Proof.
  induction l as [|a l IH]; simpl; [reflexivity|].
  rewrite filter_insert, IH. reflexivity.
Qed.

Lemma filter_py_sorted k reverse l :
  List.filter (fun y => PyFloat.eqb (key y) k) (py_sorted key reverse l) =
  List.filter (fun y => PyFloat.eqb (key y) k) l.
Proof.
  unfold py_sorted. destruct reverse; [|apply filter_isort].
  rewrite filter_rev, filter_isort, filter_rev, rev_involutive. reflexivity.
Qed.

Lemma py_sorted_ascending l :
  Forall not_nan l -> StronglySorted le (py_sorted key false l).
Proof. apply isort_strongly_sorted. Qed.

Lemma py_sorted_descending l :
  Forall not_nan l -> StronglySorted (fun x y => le y x) (py_sorted key true l).
Proof.
  intros Hl. unfold py_sorted. apply StronglySorted_rev, isort_strongly_sorted.
  apply Forall_rev. assumption.
Qed.

End SortProperties.

(* ------------------------------------------------------------------ *)
(** ** Module breakdown order *)

(** C8 (counterexample): a parsed document whose package line rates are
    [nan] and [0.5]: the module breakdown is not in descending line-rate
    order, because NaN compares false with every rate. *)
Lemma module_breakdown_nan_unsorted :
  match parse_root (coverage_elem []
          [package_elem [("name", "a"); ("line-rate", "nan")] [];
           package_elem [("name", "b"); ("line-rate", "0.5")] []]) with
  | Ok d => ~ StronglySorted (fun m1 m2 =>
               PyFloat.leb (ModuleStats.line_rate m2) (ModuleStats.line_rate m1) = true)
               (modules_sorted d)
  | Raise _ => False
  end.
Proof.
  vm_compute. intros H. inversion H as [|? ? _ Hf]. inversion Hf as [|? ? Hab _].
  vm_compute in Hab. discriminate.
Qed.

(** C8 (amended): when no module line rate is NaN, the module breakdown
    prints the modules sorted by descending line rate, as a permutation of
    the parsed modules, and modules with equal line rates keep their input
    order. *)
Theorem module_breakdown_sorted_stable (d : CoverageData.t)
  (Hnan : Forall (fun m => PyFloat.is_nan (ModuleStats.line_rate m) = false)
                 (CoverageData.modules d)) :
  module_section d =
    (["📁 MODULE COVERAGE BREAKDOWN"; rep 40 "-"] ++ concat (map module_block (modules_sorted d)))%list /\
  Permutation (modules_sorted d) (CoverageData.modules d) /\
  StronglySorted (fun m1 m2 =>
    PyFloat.leb (ModuleStats.line_rate m2) (ModuleStats.line_rate m1) = true)
    (modules_sorted d) /\
  (forall r,
     List.filter (fun m => PyFloat.eqb (ModuleStats.line_rate m) r) (modules_sorted d) =
     List.filter (fun m => PyFloat.eqb (ModuleStats.line_rate m) r) (CoverageData.modules d)).
Proof.
  unfold modules_sorted. split; [reflexivity|]. split; [apply py_sorted_perm|].
  split; [apply py_sorted_descending; assumption|].
  intros r. apply filter_py_sorted.
Qed.

(* ------------------------------------------------------------------ *)
(** ** File detail order *)

(** C9 (counterexample): a parsed document with files of line rates [nan]
    and [0.5]: the detail section is not in ascending line-rate order. *)
Lemma file_detail_nan_unsorted :
  match parse_root (coverage_elem []
          [package_elem [("name", "core")]
             [class_elem [("filename", "a"); ("line-rate", "nan")];
              class_elem [("filename", "b"); ("line-rate", "0.5")]]]) with
  | Ok d => ~ StronglySorted (fun f1 f2 =>
               PyFloat.leb (FileEntry.line_rate f1) (FileEntry.line_rate f2) = true)
               (all_files_sorted d)
  | Raise _ => False
  end.
Proof.
  vm_compute. intros H. inversion H as [|? ? _ Hf]. inversion Hf as [|? ? Hab _].
  vm_compute in Hab. discriminate.
Qed.

(** C9 (amended): the files of all modules are flattened in module order and
    then per-module order; when none of their line rates is NaN they are
    printed sorted by ascending line rate, equal rates keep the flattened
    order, and the order depends on the report only through the flattened
    list. *)
Theorem file_detail_sorted_stable (d : CoverageData.t)
  (Hnan : Forall (fun f => PyFloat.is_nan (FileEntry.line_rate f) = false) (all_files d)) :
  all_files d =
    concat (map (fun m => map (set_module (ModuleStats.name m)) (ModuleStats.files m))
                (CoverageData.modules d)) /\
  file_section d =
    (["📄 DETAILED FILE COVERAGE"; rep 40 "-"] ++ concat (map file_block (all_files_sorted d)))%list /\
  Permutation (all_files_sorted d) (all_files d) /\
  StronglySorted (fun f1 f2 =>
    PyFloat.leb (FileEntry.line_rate f1) (FileEntry.line_rate f2) = true)
    (all_files_sorted d) /\
  (forall r,
     List.filter (fun f => PyFloat.eqb (FileEntry.line_rate f) r) (all_files_sorted d) =
     List.filter (fun f => PyFloat.eqb (FileEntry.line_rate f) r) (all_files d)) /\
  (forall d', all_files d' = all_files d -> all_files_sorted d' = all_files_sorted d).
Proof.
  unfold all_files_sorted. split; [reflexivity|]. split; [reflexivity|].
  split; [apply py_sorted_perm|].
  split; [apply py_sorted_ascending; assumption|].
  split; [intros r; apply filter_py_sorted|].
  intros d' E. rewrite E. reflexivity.
Qed.

(** Witness of [module_breakdown_sorted_stable]: the sample report. *)
Lemma module_breakdown_sorted_stable_witness :
  Forall (fun m => PyFloat.is_nan (ModuleStats.line_rate m) = false)
         (CoverageData.modules sample_report) /\
  StronglySorted (fun m1 m2 =>
    PyFloat.leb (ModuleStats.line_rate m2) (ModuleStats.line_rate m1) = true)
    (modules_sorted sample_report).
Proof.
  assert (H : Forall (fun m => PyFloat.is_nan (ModuleStats.line_rate m) = false)
                     (CoverageData.modules sample_report)) by (vm_compute; repeat constructor).
  split; [exact H|].
  exact (proj1 (proj2 (proj2 (module_breakdown_sorted_stable sample_report H)))).
Defined.

(** Witness of [file_detail_sorted_stable]: the sample report. *)
Lemma file_detail_sorted_stable_witness :
  Forall (fun f => PyFloat.is_nan (FileEntry.line_rate f) = false) (all_files sample_report) /\
  StronglySorted (fun f1 f2 =>
    PyFloat.leb (FileEntry.line_rate f1) (FileEntry.line_rate f2) = true)
    (all_files_sorted sample_report).
Proof.
  assert (H : Forall (fun f => PyFloat.is_nan (FileEntry.line_rate f) = false)
                     (all_files sample_report)) by (vm_compute; repeat constructor).
  split; [exact H|].
  exact (proj1 (proj2 (proj2 (proj2 (file_detail_sorted_stable sample_report H))))).
Defined.

(* ------------------------------------------------------------------ *)
(** ** Status labels of the file detail *)

(** C6: a file's label is "EXCELLENT" exactly when its percentage
    (line rate times 100) is at least 90, "GOOD" exactly when it is at least
    70 and below 90, and "NEEDS WORK" otherwise; a percentage of exactly
    90.0 is "EXCELLENT", of exactly 70.0 is "GOOD", and of 69.9 is
    "NEEDS WORK".  The label is printed on the file's coverage line. *)
Theorem file_status_label (f : FileEntry.t) :
  let p := pct (FileEntry.line_rate f) in
  In ("  Line Coverage: " ++ PyFmt.fmt_1f p ++ "% " ++ status p) (file_block f) /\
  (status p = "✅ EXCELLENT" <-> ge_int p 90 = true) /\
  (status p = "⚠️  GOOD" <-> ge_int p 70 = true /\ lt_int p 90 = true) /\
  (status p = "❌ NEEDS WORK" <-> ge_int p 70 = false) /\
  (p = PyFloat.of_Z 90 -> status p = "✅ EXCELLENT") /\
  (p = PyFloat.of_Z 70 -> status p = "⚠️  GOOD") /\
  (p = float_lit "69.9" -> status p = "❌ NEEDS WORK").
Proof.
  intros p.
  split; [simpl; tauto|].
  assert (Hlt : forall n, PyFloat.is_nan (PyFloat.of_Z n) = false ->
                  ge_int p n = true -> lt_int p 90 = negb (ge_int p 90)).
  { intros n Hn H. apply lt_int_ge_int; [|reflexivity].
    exact (proj2 (leb_not_nan _ _ H)). }
  unfold status.
  destruct (ge_int p 90) eqn:E90; [|destruct (ge_int p 70) eqn:E70].
  - assert (E70 : ge_int p 70 = true).
    { unfold ge_int in *. apply (leb_trans _ (PyFloat.of_Z 90)); [reflexivity|assumption]. }
    rewrite (Hlt 90 eq_refl E90). simpl.
    repeat split; try discriminate; try (intros [_ H]; discriminate).
    + intros H. rewrite E70 in H. discriminate.
    + intros H. rewrite H in E90. discriminate.
    + intros H. rewrite H in E90. discriminate.
  - rewrite (Hlt 70 eq_refl E70). simpl.
    repeat split; try discriminate; try reflexivity.
    + intros H. rewrite H in E90. discriminate.
    + intros H. rewrite H in E70. discriminate.
  - repeat split; try discriminate; try reflexivity.
    + intros [H _]. discriminate.
    + intros H. rewrite H in E90. discriminate.
    + intros H. rewrite H in E70. discriminate.
Qed.

(** Witness of [file_status_label]: files parsed with line rates [0.9],
    [0.7] and [0.699]. *)
Lemma file_status_label_witness :
  status (pct (float_lit "0.9")) = "✅ EXCELLENT" /\
  status (pct (float_lit "0.7")) = "⚠️  GOOD" /\
  status (pct (float_lit "0.699")) = "❌ NEEDS WORK".
Proof.
  split; [|split].
  - destruct (file_status_label (file_with_rate "a" "0.9")) as (_ & _ & _ & _ & H90 & _).
    apply H90. vm_compute. reflexivity.
  - destruct (file_status_label (file_with_rate "b" "0.7")) as (_ & _ & _ & _ & _ & H70 & _).
    apply H70. vm_compute. reflexivity.
  - destruct (file_status_label (file_with_rate "c" "0.699")) as (_ & _ & _ & [_ Hnw] & _).
    apply Hnw. vm_compute. reflexivity.
Defined.

(* ------------------------------------------------------------------ *)
(** ** Files needing attention *)

(** C7: the "files needing attention" list closes the report; it holds
    exactly the flattened files whose percentage is strictly below 50, in
    flattened input order (a sublist of [all_files], not of the sorted
    list); the section is omitted exactly when no file qualifies; a file at
    49.9% is listed and a file at 50.0% is not. *)
Theorem attention_list (d : CoverageData.t) :
  let low := low_coverage_files (all_files d) in
  (exists pre, report_lines d = pre ++ attention_section (all_files d))%list /\
  attention_section (all_files d) =
    match low with
    | [] => []
    | f :: r => "" :: "🔍 Files needing attention (< 50% coverage):"
                  :: map low_coverage_line (f :: r)
    end /\
  (forall f, In f low <->
             In f (all_files d) /\ lt_int (pct (FileEntry.line_rate f)) 50 = true) /\
  sublist low (all_files d) /\
  (attention_section (all_files d) = [] <->
   Forall (fun f => lt_int (pct (FileEntry.line_rate f)) 50 = false) (all_files d)) /\
  (forall f, In f (all_files d) -> pct (FileEntry.line_rate f) = float_lit "49.9" -> In f low) /\
  (forall f, pct (FileEntry.line_rate f) = PyFloat.of_Z 50 -> ~ In f low).
Proof.
  cbv zeta.
  split.
  { exists (header_lines ++ overall_lines d ++ module_section d ++ file_section d ++
            summary_head d)%list.
    unfold report_lines, summary_section. rewrite <- !app_assoc. reflexivity. }
  split; [unfold attention_section; reflexivity|].
  split; [intros f; apply filter_In|].
  split; [apply filter_sublist|].
  split.
  { unfold attention_section. rewrite <- (filter_nil_iff _ (all_files d)).
    unfold low_coverage_files.
    destruct (List.filter _ (all_files d)); split; intros H; try reflexivity; discriminate. }
  split.
  - intros f Hin Hp. apply filter_In. split; [assumption|].
    rewrite Hp. vm_compute. reflexivity.
  - intros f Hp Hin. apply filter_In in Hin. destruct Hin as [_ Hlt].
    rewrite Hp in Hlt. vm_compute in Hlt. discriminate.
Qed.

(** Witness of [attention_list]: in the sample report [util/b] (0.499) is
    listed and [util/c] (0.5) is not. *)
Lemma attention_list_witness :
  In (set_module "util" (file_with_rate "util/b" "0.499"))
     (low_coverage_files (all_files sample_report)) /\
  ~ In (set_module "util" (file_with_rate "util/c" "0.5"))
       (low_coverage_files (all_files sample_report)).
Proof.
  destruct (attention_list sample_report) as (_ & _ & _ & _ & _ & H499 & H50).
  split.
  - apply H499; [vm_compute; tauto | vm_compute; reflexivity].
  - apply H50. vm_compute. reflexivity.
Defined.

(* ------------------------------------------------------------------ *)
(** ** Effect of the formatter on its argument *)

(** C1 (counterexample): after formatting the spec's end-to-end report, the
    report given is no longer the same: its per-file dict gained the key
    ['module']. *)
Lemma generate_text_report_changes_report :
  match parse_root core_doc with
  | Ok d => snd (generate_text_report (Some d)) <> Some d
  | Raise _ => False
  end.
Proof. vm_compute. intros H. discriminate. Qed.

Lemma erase_set_module mn f : erase_module_key (set_module mn f) = erase_module_key f.
Proof. reflexivity. Qed.

(** C1 (amended): the formatter returns the text of [report_lines] and
    changes its argument only by setting, in every per-file dict of every
    module, the key ['module'] to that module's name; every other field, and
    the top-level ['files'] list, are unchanged. *)
Theorem generate_text_report_effect (d : CoverageData.t) :
  generate_text_report (Some d) = (String.concat nl (report_lines d), Some (annotate d)) /\
  erase_module_keys (annotate d) = erase_module_keys d /\
  Forall (fun m => Forall (fun f => FileEntry.module f = Some (ModuleStats.name m))
                          (ModuleStats.files m))
         (CoverageData.modules (annotate d)).
Proof.
  split; [reflexivity|]. split.
  - unfold erase_module_keys, annotate. simpl. f_equal.
    rewrite map_map. apply map_ext. intros m. simpl.
    rewrite map_map. f_equal.
  - unfold annotate. simpl. apply Forall_map, List.Forall_forall. intros m _.
    simpl. apply Forall_map, List.Forall_forall. intros f _. reflexivity.
Qed.

(* ------------------------------------------------------------------ *)
(** ** JSON round trip *)

Lemma map_option_map {A} (enc : A -> json) (dec : json -> option A) (l : list A) :
  (forall x, dec (enc x) = Some x) -> Reload.map_option dec (map enc l) = Some l.
Proof.
  intros H. induction l as [|a l IH]; simpl; [reflexivity|].
  rewrite H, IH. reflexivity.
Qed.

Lemma file_round_trip f : Reload.file_of_json (file_to_json f) = Some f.
Proof. destruct f as [n lr br cx ln cl bn cb [mn|]]; reflexivity. Qed.

Lemma module_round_trip m : Reload.module_of_json (module_to_json m) = Some m.
Proof.
  destruct m as [n lr br cx files]. simpl.
  rewrite (map_option_map _ _ _ file_round_trip). reflexivity.
Qed.

(** C5: the document [generate_json_report] writes is the JSON rendering of
    the whole report, and reading every field back from it rebuilds a
    report equal to the one given: all counts, rates, complexities, names,
    the optional ['module'] keys and the nesting of files in modules. *)
Theorem json_report_round_trip (d : CoverageData.t) :
  (forall json_dumps path st,
     generate_json_report json_dumps d path st =
     (Done tt, IoState (<[path := json_dumps (report_to_json d)]> (fs st)) (stdout st))) /\
  Reload.report_of_json (report_to_json d) = Some d.
Proof.
  split; [reflexivity|].
  destruct d as [tl cl lr tb cb br modules files]. simpl.
  rewrite (map_option_map _ _ _ module_round_trip).
  rewrite (map_option_map _ _ _ file_round_trip). reflexivity.
Qed.

(* ------------------------------------------------------------------ *)
(** ** The driver on failure *)

(** C3: when the input file is missing, or the parser returns [None], [main]
    exits with status 1 and the files are exactly those before the run: no
    report file is created or modified. *)
Theorem main_failure_writes_nothing (et_parse : string -> result element)
  (json_dumps : json -> string) (st : io_state)
  (Hfail : fs st !! xml_file = None \/
           exists text, fs st !! xml_file = Some text /\
                        fst (parse_cobertura_xml (et_parse text)) = None) :
  fst (run_main et_parse json_dumps st) = 1 /\
  fs (snd (run_main et_parse json_dumps st)) = fs st.
Proof.
  unfold run_main, main, io_bind, read_file.
  destruct Hfail as [Hnone | (text & Htext & Hparse)].
  - rewrite Hnone. simpl. split; reflexivity.
  - rewrite Htext. simpl.
    destruct (parse_cobertura_xml (et_parse text)) as [[d|] msgs]; simpl in Hparse;
      [discriminate|]. simpl. split; reflexivity.
Qed.

(** Witness of [main_failure_writes_nothing]: an existing input that
    [ET.parse] rejects, with an older text report on disk. *)
Lemma main_failure_writes_nothing_witness :
  let st := IoState (<[xml_file := "<coverage"]> {[ "coverage_report.txt" := "old" ]}) [] in
  fst (run_main (fun _ => Raise (ParseError "no element found")) (fun _ => "") st) = 1 /\
  fs (snd (run_main (fun _ => Raise (ParseError "no element found")) (fun _ => "") st)) = fs st.
Proof.
  intros st. apply main_failure_writes_nothing. right.
  exists "<coverage". split; [|reflexivity].
  unfold st. simpl. apply lookup_insert_eq.
Defined.

(* ------------------------------------------------------------------ *)
(** ** Parser: attribute readers *)

Ltac inv_bind H :=
  unfold bind in H;
  repeat match type of H with
  | context [match ?c with Ok _ => _ | Raise _ => _ end] =>
      let E := fresh "E" in destruct c eqn:E; [|discriminate H]
  end;
  injection H as <-.

Lemma int_attr_absent a k : a !! k = None -> int_attr a k = Ok 0.
Proof. intros H. unfold int_attr, attr_get. rewrite H. reflexivity. Qed.

Lemma float_attr_absent a k : a !! k = None -> float_attr a k = Ok PyFloat.zero.
Proof. intros H. unfold float_attr, attr_get. rewrite H. reflexivity. Qed.

Lemma int_attr_default a k n : int_attr a k = Ok n -> a !! k = None -> n = 0.
Proof. intros E H. rewrite int_attr_absent in E by assumption. congruence. Qed.

Lemma float_attr_default a k x :
  float_attr a k = Ok x -> a !! k = None -> x = PyFloat.zero.
Proof. intros E H. rewrite float_attr_absent in E by assumption. congruence. Qed.

(** Deleting an attribute leaves the other readers unchanged and makes its
    own reader return zero. *)
Lemma int_attr_delete a k k' n :
  int_attr a k' = Ok n -> exists n', int_attr (delete k a) k' = Ok n'.
Proof.
  intros E. destruct (decide (k = k')) as [<-|Hne].
  - exists 0. apply int_attr_absent. apply lookup_delete_eq.
  - exists n. unfold int_attr, attr_get in *. rewrite lookup_delete_ne by assumption. exact E.
Qed.

Lemma float_attr_delete a k k' x :
  float_attr a k' = Ok x -> exists x', float_attr (delete k a) k' = Ok x'.
Proof.
  intros E. destruct (decide (k = k')) as [<-|Hne].
  - exists PyFloat.zero. apply float_attr_absent. apply lookup_delete_eq.
  - exists x. unfold float_attr, attr_get in *. rewrite lookup_delete_ne by assumption. exact E.
Qed.

Lemma map_result_Forall2 {A B} (f : A -> result B) l l' :
  map_result f l = Ok l' -> Forall2 (fun x y => f x = Ok y) l l'.
Proof.
  revert l'. induction l as [|a l IH]; simpl; intros l' H.
  - injection H as <-. constructor.
  - unfold bind in H. destruct (f a) eqn:Ea; [|discriminate].
    destruct (map_result f l) eqn:El; [|discriminate].
    injection H as <-. constructor; [assumption | apply IH; reflexivity].
Qed.

Lemma Forall2_Forall_r {A B} (P : A -> Prop) (Q : B -> Prop) (R : A -> B -> Prop) l l' :
  Forall2 R l l' -> Forall P l -> (forall x y, R x y -> P x -> Q y) -> Forall Q l'.
Proof.
  intros H2. induction H2 as [|x y l l' Hxy _ IH]; intros HP HQ; constructor.
  - inversion HP; subst. eapply HQ; eassumption.
  - inversion HP; subst. apply IH; assumption.
Qed.

(* ------------------------------------------------------------------ *)
(** ** Rates *)

(** C2 (counterexample): a document whose root says [line-rate="1.5"] is
    accepted, and its overall line rate is 1.5 (3 * 2^51 * 2^-52), outside
    [0, 1]. *)
Lemma parsed_rate_outside_unit :
  match parse_root (coverage_elem [("line-rate", "1.5")] []) with
  | Ok d => CoverageData.line_rate d = S754_finite false (3 * 2 ^ 51) (-52) /\
            in01 (CoverageData.line_rate d) = false
  | Raise _ => False
  end.
Proof. vm_compute. split; reflexivity. Qed.

Lemma parse_class_rates c f :
  parse_class c = Ok f -> attrs_rates_in01 (attrib c) ->
  in01 (FileEntry.line_rate f) = true /\ in01 (FileEntry.branch_rate f) = true.
Proof.
  intros H Hr. unfold parse_class in H. inv_bind H. simpl.
  split; eapply Hr; [left|eassumption|right|eassumption]; reflexivity.
Qed.

Lemma parse_package_rates p m :
  parse_package p = Ok m -> attrs_rates_in01 (attrib p) ->
  Forall (fun c => attrs_rates_in01 (attrib c)) (findall p "classes" "class") ->
  in01 (ModuleStats.line_rate m) = true /\ in01 (ModuleStats.branch_rate m) = true /\
  Forall (fun f => in01 (FileEntry.line_rate f) = true /\ in01 (FileEntry.branch_rate f) = true)
         (ModuleStats.files m).
Proof.
  intros H Hr Hc. unfold parse_package in H. inv_bind H. simpl.
  split; [eapply Hr; [left|eassumption]; reflexivity|].
  split; [eapply Hr; [right|eassumption]; reflexivity|].
  eapply Forall2_Forall_r; [apply map_result_Forall2; eassumption | exact Hc |].
  intros c f Hcf Hcr. cbv beta in *. eapply parse_class_rates; eassumption.
Qed.

Lemma parse_class_attr_rates c f :
  parse_class c = Ok f ->
  attrs_give_rates (attrib c) (FileEntry.line_rate f) (FileEntry.branch_rate f).
Proof. intros H. unfold parse_class in H. inv_bind H. split; assumption. Qed.

Lemma parse_package_attr_rates p m :
  parse_package p = Ok m ->
  attrs_give_rates (attrib p) (ModuleStats.line_rate m) (ModuleStats.branch_rate m) /\
  Forall2 (fun c f => attrs_give_rates (attrib c) (FileEntry.line_rate f) (FileEntry.branch_rate f))
          (findall p "classes" "class") (ModuleStats.files m).
Proof.
  intros H. unfold parse_package in H. inv_bind H. split; [split; assumption|].
  eapply Forall2_impl; [apply map_result_Forall2; eassumption|].
  intros c f Hcf. apply parse_class_attr_rates. exact Hcf.
Qed.

(** C2 (amended): the parser checks no range; every rate of the report (the
    overall line and branch rates, and those of each module and each file)
    is the float value of the matching element's attribute, 0.0 when absent;
    so the rates of the report lie in [0, 1] whenever the rate attributes of
    the input do. *)
Theorem parsed_rates_in_unit (root : element) (d : CoverageData.t)
  (Hparse : parse_root root = Ok d) :
  rates_from_attrs root d /\
  (input_rates_in01 root -> report_rates_in01 d).
Proof.
  unfold parse_root in Hparse. inv_bind Hparse. split.
  - split; [split; assumption|]. simpl.
    eapply Forall2_impl; [apply map_result_Forall2; eassumption|].
    intros p m Hpm. apply parse_package_attr_rates. exact Hpm.
  - intros [Hr Hp]. simpl.
    split; [eapply Hr; [left|eassumption]; reflexivity|].
    split; [eapply Hr; [right|eassumption]; reflexivity|].
    eapply Forall2_Forall_r; [apply map_result_Forall2; eassumption | exact Hp |].
    intros p m Hpm [Hpr Hpc]. cbv beta in *. eapply parse_package_rates; eassumption.
Qed.

Ltac rates_ok :=
  let E := fresh "E" in
  intros ? ? [-> | ->] E; vm_compute in E; injection E as <-; vm_compute; reflexivity.

(** Witness of [parsed_rates_in_unit]: the sample document. *)
Lemma parsed_rates_in_unit_witness :
  input_rates_in01 sample_doc /\ parse_root sample_doc = Ok sample_report /\
  report_rates_in01 sample_report.
Proof.
  assert (Hin : input_rates_in01 sample_doc).
  { split; [rates_ok|]. cbn. repeat constructor; rates_ok. }
  assert (Hp : parse_root sample_doc = Ok sample_report) by (vm_compute; reflexivity).
  split; [exact Hin|]. split; [exact Hp|].
  exact (proj2 (parsed_rates_in_unit sample_doc sample_report Hp) Hin).
Defined.

(* ------------------------------------------------------------------ *)
(** ** Absent attributes *)

Ltac default_field :=
  intros ?Ha;
  first [ eapply float_attr_default | eapply int_attr_default ]; eassumption.

Lemma parse_class_defaults c f :
  parse_class c = Ok f -> class_defaults (attrib c) f.
Proof.
  intros H. unfold parse_class in H. inv_bind H. simpl.
  repeat split; default_field.
Qed.

Lemma parse_package_defaults p m :
  parse_package p = Ok m ->
  package_defaults (attrib p) m /\
  Forall2 (fun c f => class_defaults (attrib c) f)
          (findall p "classes" "class") (ModuleStats.files m).
Proof.
  intros H. unfold parse_package in H. inv_bind H. simpl.
  split; [repeat split; default_field|].
  eapply Forall2_impl; [apply map_result_Forall2; eassumption|].
  intros c f Hcf. apply parse_class_defaults. exact Hcf.
Qed.

(** C4: an absent attribute never makes a reader fail: it reads as the int
    0 or the float 0.0; in a parsed report every count, rate or complexity
    whose attribute is absent is 0 or 0.0 (root, packages and classes); and
    removing any attribute from the root of a document that parses leaves a
    document that still parses. *)
Theorem absent_attributes_parse_as_zero (root : element) (d : CoverageData.t)
  (Hparse : parse_root root = Ok d) :
  (forall a k, a !! k = None -> int_attr a k = Ok 0 /\ float_attr a k = Ok PyFloat.zero) /\
  root_defaults (attrib root) d /\
  Forall2 (fun p m => package_defaults (attrib p) m /\
                      Forall2 (fun c f => class_defaults (attrib c) f)
                              (findall p "classes" "class") (ModuleStats.files m))
          (findall root "packages" "package") (CoverageData.modules d) /\
  (forall k, exists d', parse_root (delete_attr k root) = Ok d').
Proof.
  split; [intros a k Ha; split; [apply int_attr_absent | apply float_attr_absent]; exact Ha|].
  unfold parse_root in Hparse |- *. inv_bind Hparse. simpl.
  split; [repeat split; default_field|].
  split.
  - eapply Forall2_impl; [apply map_result_Forall2; eassumption|].
    intros p m Hpm. apply parse_package_defaults. exact Hpm.
  - intros k.
    change (attrib (delete_attr k root)) with (delete k (attrib root)).
    change (findall (delete_attr k root) "packages" "package")
      with (findall root "packages" "package").
    destruct (int_attr_delete _ k _ _ E) as [n1 R1].
    destruct (int_attr_delete _ k _ _ E0) as [n2 R2].
    destruct (float_attr_delete _ k _ _ E1) as [x3 R3].
    destruct (int_attr_delete _ k _ _ E2) as [n4 R4].
    destruct (int_attr_delete _ k _ _ E3) as [n5 R5].
    destruct (float_attr_delete _ k _ _ E4) as [x6 R6].
    rewrite R1, R2, R3, R4, R5, R6, E5. simpl. eexists. reflexivity.
Qed.

(** Witness of [absent_attributes_parse_as_zero]: the spec's document, whose
    root has no branch attributes. *)
Lemma absent_attributes_parse_as_zero_witness :
  parse_root core_doc = Ok (match parse_root core_doc with Ok d => d | Raise _ => empty_report end) /\
  CoverageData.total_branches
    (match parse_root core_doc with Ok d => d | Raise _ => empty_report end) = 0.
Proof.
  assert (Hp : parse_root core_doc =
               Ok (match parse_root core_doc with Ok d => d | Raise _ => empty_report end))
    by (vm_compute; reflexivity).
  split; [exact Hp|].
  destruct (absent_attributes_parse_as_zero core_doc _ Hp) as (_ & Hroot & _).
  destruct Hroot as (_ & _ & _ & Hb & _). apply Hb. vm_compute. reflexivity.
Defined.

(* ------------------------------------------------------------------ *)
(** ** Present but non-numeric attributes *)

(** C10: when the root's [lines-valid] is present with a value [int()]
    rejects, the whole parse fails and [parse_cobertura_xml] returns [None],
    whatever the other attributes are; on the spec's document with
    [lines-valid="abc"] the parse fails, while the same document with the
    attribute removed parses (to a report with [total_lines = 0]). *)
Theorem non_numeric_attribute_fails :
  (forall root s, attrib root !! "lines-valid" = Some s -> PyNum.py_int s = None ->
     fst (parse_cobertura_xml (Ok root)) = None) /\
  (attrib bad_lines_doc !! "lines-valid" = Some "abc" /\
   fst (parse_cobertura_xml (Ok bad_lines_doc)) = None /\
   exists d, fst (parse_cobertura_xml (Ok (delete_attr "lines-valid" bad_lines_doc))) = Some d /\
             CoverageData.total_lines d = 0).
Proof.
  split.
  - intros root s Hs Hn. unfold parse_cobertura_xml, parse_root. simpl.
    unfold int_attr, attr_get. rewrite Hs. unfold int_of_str. rewrite Hn. reflexivity.
  - split; [reflexivity|]. split; [vm_compute; reflexivity|].
    eexists. split; [vm_compute; reflexivity|]. reflexivity.
Qed.

(** Witness of [non_numeric_attribute_fails] at [bad_lines_doc]. *)
Lemma non_numeric_attribute_fails_witness :
  attrib bad_lines_doc !! "lines-valid" = Some "abc" /\ PyNum.py_int "abc" = None /\
  fst (parse_cobertura_xml (Ok bad_lines_doc)) = None.
Proof.
  assert (H1 : attrib bad_lines_doc !! "lines-valid" = Some "abc") by reflexivity.
  assert (H2 : PyNum.py_int "abc" = None) by reflexivity.
  split; [exact H1|]. split; [exact H2|].
  exact (proj1 non_numeric_attribute_fails bad_lines_doc "abc" H1 H2).
Defined.

(* ================================================================== *)
(** * Further properties of the code *)

(* ------------------------------------------------------------------ *)
(** ** Shape of the parsed report *)

(** The report has one module per [packages/package] element and one file per
    [classes/class] element, in document order; a missing [name] or
    [filename] reads as ["unknown"]; no file carries a ['module'] key yet and
    the top-level [files] list stays empty. *)
Theorem parse_report_shape (root : element) (d : CoverageData.t)
  (Hparse : parse_root root = Ok d) :
  CoverageData.files d = [] /\
  Forall2 (fun p m =>
             ModuleStats.name m = attr_get (attrib p) "name" "unknown" /\
             Forall2 (fun c f => FileEntry.name f = attr_get (attrib c) "filename" "unknown" /\
                                 FileEntry.module f = None)
                     (findall p "classes" "class") (ModuleStats.files m))
          (findall root "packages" "package") (CoverageData.modules d).
Proof.
  unfold parse_root in Hparse. inv_bind Hparse. simpl. split; [reflexivity|].
  eapply Forall2_impl; [apply map_result_Forall2; eassumption|].
  intros p m Hpm. unfold parse_package in Hpm. inv_bind Hpm. simpl.
  split; [reflexivity|].
  eapply Forall2_impl; [apply map_result_Forall2; eassumption|].
  intros c f Hcf. unfold parse_class in Hcf. inv_bind Hcf. simpl. split; reflexivity.
Qed.

(** Witness of [parse_report_shape]: [sample_doc], two packages. *)
Lemma parse_report_shape_witness :
  parse_root sample_doc = Ok sample_report /\
  length (CoverageData.modules sample_report) = 2%nat.
Proof.
  assert (Hp : parse_root sample_doc = Ok sample_report) by (vm_compute; reflexivity).
  split; [exact Hp|].
  destruct (parse_report_shape sample_doc sample_report Hp) as [_ H].
  rewrite <- (Forall2_length _ _ _ H). reflexivity.
Defined.

(* ------------------------------------------------------------------ *)
(** ** A bad number anywhere fails the whole parse *)












(* ------------------------------------------------------------------ *)
(** ** Root attributes the parser does not read *)

Lemma attr_get_insert_ne a k k' v d :
  k <> k' -> attr_get (<[k:=v]> a) k' d = attr_get a k' d.
Proof. intros H. unfold attr_get. rewrite lookup_insert_ne by exact H. reflexivity. Qed.

Lemma attr_get_delete_ne a k k' d :
  k <> k' -> attr_get (delete k a) k' d = attr_get a k' d.
Proof. intros H. unfold attr_get. rewrite lookup_delete_ne by exact H. reflexivity. Qed.

(** Setting or removing a root attribute other than the six counts and
    rates the parser reads (e.g. [version] or [timestamp]) does not change
    the parse. *)
Theorem root_other_attributes_ignored (root : element) (k v : string)
  (Hk : ~ In k (count_keys ++ root_rate_keys)) :
  parse_root (set_attr k v root) = parse_root root /\
  parse_root (delete_attr k root) = parse_root root.
Proof.
  assert (Hne : forall k', In k' (count_keys ++ root_rate_keys) -> k <> k')
    by (intros k' Hk' ->; exact (Hk Hk')).
  unfold parse_root, set_attr, delete_attr, int_attr, float_attr. cbv zeta.
  cbn [attrib children tag].
  split;
    [ rewrite !attr_get_insert_ne by (apply Hne; simpl; tauto)
    | rewrite !attr_get_delete_ne by (apply Hne; simpl; tauto) ];
    reflexivity.
Qed.

(** Witness of [root_other_attributes_ignored]: a [version] attribute on
    the spec's document. *)
Lemma root_other_attributes_ignored_witness :
  ~ In "version" (count_keys ++ root_rate_keys) /\
  parse_root (set_attr "version" "1.9" core_doc) = parse_root core_doc.
Proof.
  assert (H : ~ In "version" (count_keys ++ root_rate_keys))
    by (simpl; intuition discriminate).
  split; [exact H|]. exact (proj1 (root_other_attributes_ignored core_doc "version" "1.9" H)).
Defined.

(* ------------------------------------------------------------------ *)
(** ** Overall verdict of the summary *)

(** The summary section comes right after the per-file section; its verdict line is
    EXCELLENT exactly when the overall percentage (line rate x 100) is at
    least 80, GOOD exactly when it is at least 60 and below 80, NEEDS WORK
    otherwise (a NaN rate included); exactly 80.0 is EXCELLENT and exactly
    60.0 is GOOD. *)
Theorem summary_verdict (d : CoverageData.t) :
  let p := pct (CoverageData.line_rate d) in
  let verdict := nth 2 (summary_head d) "" in
  (exists pre, report_lines d =
     (pre ++ file_section d ++ summary_head d ++ attention_section (all_files d))%list) /\
  (verdict = "✅ EXCELLENT: Overall coverage is very good!" <-> ge_int p 80 = true) /\
  (verdict = "⚠️  GOOD: Overall coverage is decent but could be improved" <->
     ge_int p 60 = true /\ lt_int p 80 = true) /\
  (verdict = "❌ NEEDS WORK: Overall coverage needs significant improvement" <->
     ge_int p 60 = false) /\
  (p = PyFloat.of_Z 80 -> verdict = "✅ EXCELLENT: Overall coverage is very good!") /\
  (p = PyFloat.of_Z 60 -> verdict = "⚠️  GOOD: Overall coverage is decent but could be improved").
Proof.
  intros p verdict.
  split.
  { exists (header_lines ++ overall_lines d ++ module_section d)%list.
    unfold report_lines, summary_section. rewrite <- !app_assoc. reflexivity. }
  assert (Hlt : forall n, PyFloat.is_nan (PyFloat.of_Z n) = false ->
                  ge_int p n = true -> lt_int p 80 = negb (ge_int p 80)).
  { intros n Hn H. apply lt_int_ge_int; [|reflexivity].
    exact (proj2 (leb_not_nan _ _ H)). }
  subst verdict. unfold summary_head. fold p. cbn [nth].
  destruct (ge_int p 80) eqn:E80; [|destruct (ge_int p 60) eqn:E60].
  - assert (E60 : ge_int p 60 = true).
    { unfold ge_int in *. apply (leb_trans _ (PyFloat.of_Z 80)); [reflexivity|assumption]. }
    rewrite (Hlt 80 eq_refl E80). simpl.
    repeat split; try discriminate; try (intros [_ H]; discriminate).
    + intros H. rewrite E60 in H. discriminate.
    + intros H. rewrite H in E80. discriminate.
  - rewrite (Hlt 60 eq_refl E60). simpl.
    repeat split; try discriminate; try reflexivity.
    intros H. rewrite H in E80. discriminate.
  - repeat split; try discriminate; try reflexivity.
    + intros [H _]. discriminate.
    + intros H. rewrite H in E80. discriminate.
    + intros H. rewrite H in E60. discriminate.
Qed.

(* ------------------------------------------------------------------ *)
(** ** Size of the text report *)

Lemma length_concat_map_const {A B} (f : A -> list B) k l :
  (forall x, length (f x) = k) -> length (concat (map f l)) = (k * length l)%nat.
Proof.
  intros Hf. induction l as [|x l IH]; simpl; [lia|].
  rewrite length_app, Hf, IH. lia.
Qed.

Lemma all_files_length d :
  length (all_files d) =
  list_sum (map (fun m => length (ModuleStats.files m)) (CoverageData.modules d)).
Proof.
  unfold all_files. induction (CoverageData.modules d) as [|m ms IH]; simpl; [reflexivity|].
  rewrite length_app, length_map, IH. reflexivity.
Qed.

(** The text is the list [report] joined with newlines, and that list has
    21 fixed entries, 5 per module, 7 per file, and, when some file is below
    50%, 2 more plus one per such file. *)
Theorem report_line_count (d : CoverageData.t) :
  fst (generate_text_report (Some d)) = String.concat nl (report_lines d) /\
  length (report_lines d) =
  (21 + 5 * length (CoverageData.modules d)
   + 7 * list_sum (map (fun m => length (ModuleStats.files m)) (CoverageData.modules d))
   + match low_coverage_files (all_files d) with [] => 0 | low => 2 + length low end)%nat.
Proof.
  split; [reflexivity|].
  unfold report_lines, summary_section, module_section, file_section.
  rewrite !length_app.
  rewrite (length_concat_map_const module_block 5) by reflexivity.
  rewrite (length_concat_map_const file_block 7) by reflexivity.
  unfold modules_sorted, all_files_sorted.
  rewrite !(Permutation_length (py_sorted_perm _ _ _)), all_files_length.
  unfold attention_section.
  destruct (low_coverage_files (all_files d)) as [|f r]; simpl; rewrite ?length_map; lia.
Qed.

(* ------------------------------------------------------------------ *)
(** ** Calling the formatter again *)

Lemma insert_map {A} (key : A -> PyFloat.t) (g : A -> A)
  (Hg : forall x, key (g x) = key x) x l :
  insert key (g x) (map g l) = map g (insert key x l).
Proof.
  induction l as [|y l IH]; simpl; [reflexivity|].
  rewrite !Hg. destruct (PyFloat.ltb (key y) (key x)); simpl; [rewrite IH|]; reflexivity.
Qed.

Lemma py_sorted_map {A} (key : A -> PyFloat.t) (g : A -> A)
  (Hg : forall x, key (g x) = key x) reverse l :
  py_sorted key reverse (map g l) = map g (py_sorted key reverse l).
Proof.
  assert (Hi : forall l, isort key (map g l) = map g (isort key l)).
  { induction l0 as [|x l0 IH]; simpl; [reflexivity|]. rewrite IH. apply insert_map, Hg. }
  unfold py_sorted. destruct reverse; [|apply Hi].
  rewrite <- map_rev, Hi, map_rev. reflexivity.
Qed.

Lemma set_module_twice mn f : set_module mn (set_module mn f) = set_module mn f.
Proof. reflexivity. Qed.

Lemma annotate_twice d : annotate (annotate d) = annotate d.
Proof.
  unfold annotate. simpl. f_equal. rewrite map_map. apply map_ext. intros m.
  unfold annotate_module. simpl. rewrite map_map. reflexivity.
Qed.

Lemma all_files_annotate d : all_files (annotate d) = all_files d.
Proof.
  unfold all_files, annotate. simpl. rewrite map_map. f_equal. apply map_ext.
  intros m. simpl. rewrite map_map. reflexivity.
Qed.

Lemma modules_sorted_annotate d :
  modules_sorted (annotate d) = map annotate_module (modules_sorted d).
Proof. unfold modules_sorted. apply py_sorted_map. reflexivity. Qed.

Lemma report_lines_annotate d : report_lines (annotate d) = report_lines d.
Proof.
  unfold report_lines, summary_section, file_section, all_files_sorted, module_section.
  rewrite all_files_annotate, modules_sorted_annotate, map_map. reflexivity.
Qed.

(** Calling [generate_text_report] again on the report it has mutated
    returns the same text and leaves the report as the first call left it. *)
Theorem generate_text_report_idempotent (d : CoverageData.t) :
  generate_text_report (snd (generate_text_report (Some d))) = generate_text_report (Some d).
Proof.
  change (snd (generate_text_report (Some d))) with (Some (annotate d)).
  unfold generate_text_report. rewrite report_lines_annotate, annotate_twice. reflexivity.
Qed.

(* ------------------------------------------------------------------ *)
(** ** The driver on success *)



(* ------------------------------------------------------------------ *)
(** ** What the driver never does *)


(* ------------------------------------------------------------------ *)
(** ** The JSON report main writes *)

Lemma erase_module_keys_annotate d : erase_module_keys (annotate d) = erase_module_keys d.
Proof.
  unfold erase_module_keys, annotate. simpl. f_equal.
  rewrite map_map. apply map_ext. intros m. simpl. rewrite map_map. reflexivity.
Qed.

(** On success the JSON report [main] writes decodes to a report that
    differs from the parsed one only in the ['module'] key each file record
    now carries, holding the name of its module. *)
Theorem main_json_report (et_parse : string -> result element) (json_dumps : json -> string)
  (st : io_state) (text : string) (root : element) (d : CoverageData.t)
  (Hin : fs st !! xml_file = Some text) (Het : et_parse text = Ok root)
  (Hp : parse_root root = Ok d) :
  exists v d',
    fs (snd (run_main et_parse json_dumps st)) !! "coverage_report.json" = Some (json_dumps v) /\
    Reload.report_of_json v = Some d' /\
    erase_module_keys d' = erase_module_keys d /\
    Forall (fun m => Forall (fun f => FileEntry.module f = Some (ModuleStats.name m))
                            (ModuleStats.files m))
           (CoverageData.modules d').
Proof.
  exists (report_to_json (annotate d)), (annotate d).
  split.
  { unfold run_main, main, io_bind, read_file. simpl. rewrite Hin.
    unfold parse_cobertura_xml. rewrite Het. simpl. rewrite Hp. simpl.
    rewrite lookup_insert_ne by discriminate. apply lookup_insert_eq. }
  split.
  { destruct (annotate d) as [tl cl lr tb cb br modules files]. simpl.
    rewrite (map_option_map _ _ _ module_round_trip).
    rewrite (map_option_map _ _ _ file_round_trip). reflexivity. }
  split; [apply erase_module_keys_annotate|].
  unfold annotate. simpl. apply Forall_map, List.Forall_forall. intros m _.
  simpl. apply Forall_map, List.Forall_forall. intros f _. reflexivity.
Qed.

(** Witness of [main_json_report]: the input file parsed to the spec's document. *)
Lemma main_json_report_witness :
  exists v d',
    fs (snd (run_main (fun _ => Ok core_doc) (fun _ => "{}") input_only_state))
      !! "coverage_report.json" = Some ((fun _ => "{}") v) /\
    Reload.report_of_json v = Some d' /\
    erase_module_keys d' = erase_module_keys core_report /\
    Forall (fun m => Forall (fun f => FileEntry.module f = Some (ModuleStats.name m))
                            (ModuleStats.files m))
           (CoverageData.modules d').
Proof.
  assert (Hin : fs input_only_state !! xml_file = Some "<coverage/>") by reflexivity.
  assert (Het : (fun _ : string => Ok core_doc) "<coverage/>" = Ok core_doc) by reflexivity.
  assert (Hp : parse_root core_doc = Ok core_report) by (vm_compute; reflexivity).
  exact (main_json_report (fun _ => Ok core_doc) (fun _ => "{}") input_only_state
           "<coverage/>" core_doc core_report Hin Het Hp).
Defined.

(* ------------------------------------------------------------------ *)
(** ** Files with a NaN line rate *)

(** A file whose line rate is NaN ([line-rate="nan"] is accepted) is shown
    as "nan%" with the NEEDS WORK label, yet it is never listed among the
    files needing attention. *)
Theorem nan_rate_file (f : FileEntry.t)
  (Hnan : PyFloat.is_nan (FileEntry.line_rate f) = true) :
  In ("  Line Coverage: nan% ❌ NEEDS WORK") (file_block f) /\
  forall fs1 fs2,
    low_coverage_files (fs1 ++ f :: fs2)%list = low_coverage_files (fs1 ++ fs2)%list.
Proof.
  assert (Hp : pct (FileEntry.line_rate f) = S754_nan).
  { destruct (FileEntry.line_rate f); try discriminate. reflexivity. }
  split.
  - unfold file_block. rewrite Hp. simpl. tauto.
  - intros fs1 fs2. unfold low_coverage_files. rewrite !List.filter_app. simpl.
    unfold lt_int. rewrite Hp. reflexivity.
Qed.

(** Witness of [nan_rate_file]: a file parsed with [line-rate="nan"]. *)
Lemma nan_rate_file_witness :
  PyFloat.is_nan (FileEntry.line_rate (file_with_rate "core/lib" "nan")) = true /\
  low_coverage_files [file_with_rate "core/lib" "nan"] = [].
Proof.
  assert (H : PyFloat.is_nan (FileEntry.line_rate (file_with_rate "core/lib" "nan")) = true)
    by (vm_compute; reflexivity).
  split; [exact H|].
  exact (proj2 (nan_rate_file _ H) [] []).
Defined.
